(** * go-dependency-injection-example: the Number Service and its Store

    A shallow embedding of the Go packages [database] and [service] of
    github.com/sohamkamani/go-dependency-injection-example, followed by the
    properties of [Service.GetNumber] and [NewGetNumber].

    Conventions of the embedding.
    - Go's [int] is a 64-bit signed integer; it is modelled by [Z].  The
      code under study performs no arithmetic on it (one comparison with
      the constant 10 and one decimal print), so no wrap-around occurs.
    - A Go function that may panic and that may change objects reachable
      through pointers is a computation [M S A]: it receives the state
      [S] and either returns a value or panics, with the state reached.
    - An [error] is compared by its dynamic type and content.
    - A pointer and an interface value holding a pointer are [option loc]:
      [None] is [nil]. *)

From Stdlib Require Import ZArith String Ascii DecimalString DecimalPos DecimalZ.
From stdpp Require Import base option list gmap strings.

Local Open Scope Z_scope.
Local Open Scope string_scope.

Definition int := Z.
Definition loc := positive.

(** ** Go runtime: panics and state *)
Module runtime.

Inductive panic : Type :=
| nil_dereference            (* invalid memory address or nil pointer dereference *)
| panic_value (msg : string) (* panic(msg) *).

Inductive outcome (S A : Type) : Type :=
| Returns (a : A) (s : S)
| Panics (p : panic) (s : S).
Arguments Returns {S A} a s.
Arguments Panics {S A} p s.

Definition M (S A : Type) : Type := S -> outcome S A.

Definition ret {S A} (a : A) : M S A := fun s => Returns a s.

Definition bind {S A B} (m : M S A) (k : A -> M S B) : M S B :=
  fun s => match m s with
           | Returns a s' => k a s'
           | Panics p s' => Panics p s'
           end.

Definition throw {S A} (p : panic) : M S A := fun s => Panics p s.

(** The state in which a computation stopped, normally or not. *)
Definition final {S A} (o : outcome S A) : S :=
  match o with Returns _ s => s | Panics _ s => s end.

(** Run a computation on a part [T] of the state [S]. *)
Definition zoom {S T A} (proj : S -> T) (upd : T -> S -> S) (m : M T A) : M S A :=
  fun s => match m (proj s) with
           | Returns a t => Returns a (upd t s)
           | Panics p t => Panics p (upd t s)
           end.

(** [&v]: a new object holding [v], at an address not in use. *)
Definition new {V} (v : V) : M (gmap loc V) (option loc) :=
  fun h => let l := fresh (dom h) in Returns (Some l) (<[l := v]> h).

End runtime.
Export runtime.

Declare Scope go_scope.
Delimit Scope go_scope with go.
Notation "'do' x <- m ; k" := (bind m (fun x => k))
  (at level 10, x name, m at level 100, k at level 200) : go_scope.
Notation "'do' ' p <- m ; k" := (bind m (fun x => let 'p := x in k))
  (at level 10, p strict pattern, m at level 100, k at level 200) : go_scope.
Local Open Scope go_scope.

(** ** Package errors and package fmt (Go standard library) *)
Module errors.

(** The two implementations of the interface [error] that the standard
    library builds: [*errors.errorString] (from [errors.New], and from
    [fmt.Errorf] when the format has no [%w]) and [*fmt.wrapError]. *)
Inductive error : Type :=
| errorString (s : string)
| wrapError (msg : string) (err : error).

Definition New (text : string) : error := errorString text.

(** The method [Error() string]. *)
Definition Error (e : error) : string :=
  match e with
  | errorString s => s
  | wrapError msg _ => msg
  end.

#[global] Instance error_eq_dec : EqDecision error.
Proof. solve_decision. Defined.

End errors.
Export errors.

Module fmt.

(** The verb [%d] on an [int]: base 10, a leading [-] when negative. *)
Definition fmt_d (n : int) : string := NilZero.string_of_int (Z.to_int n).

(** What [Sprintf] appends for operands that no verb has used:
    [%!(EXTRA int=1, int=2)]. *)
Definition extra (a : list int) : string :=
  match a with
  | [] => ""
  | x :: a' =>
      "%!(EXTRA int=" +:+ fmt_d x +:+
      fold_right (fun y rest => ", int=" +:+ fmt_d y +:+ rest) ")" a'
  end.

(** [fmt.Sprintf] on [int] operands, for formats made of literal text,
    the verb [%d] and the escape [%%], which is what the format of this
    repository is made of; a [%d] without operand, a [%] at the end of
    the format and operands left over print as Go prints them.  Other
    verbs and flags are outside the model. *)
Fixpoint Sprintf (format : string) (a : list int) : string :=
  match format with
  | EmptyString => extra a
  | String "%" EmptyString => "%!(NOVERB)" +:+ extra a
  | String "%" (String "d" rest) =>
      match a with
      | x :: a' => fmt_d x +:+ Sprintf rest a'
      | [] => "%!d(MISSING)" +:+ Sprintf rest []
      end
  | String "%" (String "%" rest) => String "%" (Sprintf rest a)
  | String c rest => String c (Sprintf rest a)
  end.

(** [fmt.Errorf] for a format without [%w]. *)
Definition Errorf (format : string) (a : list int) : error :=
  errors.New (Sprintf format a).

End fmt.

(** ** github.com/stretchr/testify/mock

    The library is not part of the repository.  What [MockStore] and the
    tests use of it is modelled here: expectations registered with
    [On(...).Return(...)], and [Called], which records the call and
    gives back the return arguments of the first expectation with the
    same method name and arguments, or panics when there is none. *)
Module mock.

(** The values of type [interface{}] that the tests pass around. *)
Inductive value : Type :=
| VNil
| VInt (n : int)
| VError (e : error).

#[global] Instance value_eq_dec : EqDecision value.
Proof. solve_decision. Defined.

Definition arguments : Type := list value.

Record Call : Type := mkCall {
  Method : string;
  Args : arguments;
  ReturnArguments : arguments
}.

#[global] Instance Call_eq_dec : EqDecision Call.
Proof. solve_decision. Defined.

Record Mock : Type := mkMock {
  ExpectedCalls : list Call;
  Calls : list Call
}.

Definition matches (methodName : string) (args : arguments) (c : Call) : bool :=
  bool_decide (Method c = methodName) && bool_decide (Args c = args).

(** [m.On(methodName, args...).Return(returnArguments...)] *)
Definition On_Return (methodName : string) (args returnArguments : arguments)
  : M Mock unit :=
  fun m => Returns tt
    {| ExpectedCalls := ExpectedCalls m ++ [mkCall methodName args returnArguments];
       Calls := Calls m |}.

(** [m.Called(args...)] from the method [methodName]. *)
Definition Called (methodName : string) (args : arguments) : M Mock arguments :=
  fun m =>
    match List.find (matches methodName args) (ExpectedCalls m) with
    | Some c =>
        Returns (ReturnArguments c)
          {| ExpectedCalls := ExpectedCalls m; Calls := Calls m ++ [c] |}
    | None => Panics (panic_value "mock: I don't know what to return because the method call was unexpected.") m
    end.

(** [args.Get(index)] *)
Definition Get {S} (args : arguments) (index : nat) : M S value :=
  match args !! index with
  | Some v => ret v
  | None => throw (panic_value "assert: arguments: Cannot call Get")
  end.

(** [args.Error(index)] *)
Definition Error {S} (args : arguments) (index : nat) : M S (option error) :=
  do obj <- Get args index;
  match obj with
  | VNil => ret None
  | VError e => ret (Some e)
  | VInt _ => throw (panic_value "assert: arguments: Error failed because object wasn't correct type")
  end.

(** The type assertion [v.(int)]. *)
Definition assert_int {S} (v : value) : M S int :=
  match v with
  | VInt n => ret n
  | _ => throw (panic_value "interface conversion: interface {} is not int")
  end.

(** What [m.AssertExpectations(t)] checks: every expectation was called. *)
Definition AssertExpectations (m : Mock) : bool :=
  forallb (fun c => bool_decide (c ∈ Calls m)) (ExpectedCalls m).

End mock.

(** ** Package database *)
Module database.

(** [type Store interface { Get(ID int) (int, error) }]: a type [T]
    implements [Store] when it has the method [Get], which runs on the
    receiver's own state. *)
Class Store (T : Type) : Type :=
  Get : int -> M T (int * option error).

(** [type store struct { db *sql.DB }] *)
Record store : Type := mkstore { db : option loc }.

(** [func (d *store) Get(ID int) (int, error)] *)
Definition store_Get (ID : int) : M store (int * option error) :=
  ret (0, None).

#[global] Instance store_Store : Store store := store_Get.

(** [func NewStore(db *sql.DB) Store] *)
Definition NewStore (db : option loc) : M (gmap loc store) (option loc) :=
  new (mkstore db).

(** [type MockStore struct { mock.Mock }] *)
Record MockStore : Type := mkMockStore { Mock : mock.Mock }.

Definition on_Mock {A} (m : M mock.Mock A) : M MockStore A :=
  zoom Mock (fun m' _ => mkMockStore m') m.

(** [func (m *MockStore) Get(ID int) (int, error)] *)
Definition MockStore_Get (ID : int) : M MockStore (int * option error) :=
  do returnVals <- on_Mock (mock.Called "Get" [mock.VInt ID]);
  do v0 <- mock.Get returnVals 0;
  do r0 <- mock.assert_int v0;
  do r1 <- mock.Error returnVals 1;
  ret (r0, r1).

#[global] Instance MockStore_Store : Store MockStore := MockStore_Get.

End database.

(** ** Package service *)
Module service.

(** [type Service struct { Store database.Store }]: the field holds an
    interface value, [nil] or the address of an object implementing
    [database.Store]. *)
Record Service : Type := mkService { Store : option loc }.

(** The objects the service can reach, and the log of the calls made
    through the interface [database.Store] (receiver and argument). *)
Record World (T : Type) : Type := mkWorld {
  services : gmap loc Service;
  stores : gmap loc T;
  calls : list (loc * int)
}.
Arguments mkWorld {T} services stores calls.
Arguments services {T} w.
Arguments stores {T} w.
Arguments calls {T} w.

Section WithStore.
Context {T : Type} {impl : database.Store T}.

(** [&Service{Store: store}] *)
Definition new_Service (store : option loc) : M (World T) (option loc) :=
  zoom services (fun h w => mkWorld h (stores w) (calls w))
       (new (mkService store)).

(** The field read [s.Store] on [s *Service]. *)
Definition get_Store (s : option loc) : M (World T) (option loc) :=
  fun w => match s ≫= (services w !!.) with
           | Some v => Returns (Store v) w
           | None => Panics nil_dereference w
           end.

(** The interface method call [store.Get(ID)]: dynamic dispatch to
    the method of the object [store] holds, which runs on that
    object.  The call is logged when the method is entered. *)
Definition Store_Get (store : option loc) (ID : int)
  : M (World T) (int * option error) :=
  fun w =>
    match store with
    | Some l =>
        match stores w !! l with
        | Some o =>
            zoom (fun _ => o)
                 (fun o' w => mkWorld (services w) (<[l := o']> (stores w))
                                      (calls w ++ [(l, ID)]))
                 (database.Get ID) w
        | None => Panics nil_dereference w
        end
    | None => Panics nil_dereference w
    end.

(** [func (s *Service) GetNumber(ID int) error] *)
Definition GetNumber (s : option loc) (ID : int) : M (World T) (option error) :=
  do store <- get_Store s;
  do '(result, err) <- Store_Get store ID;
  if decide (err ≠ None) then
    ret err
  else if result >? 10 then
    ret (Some (fmt.Errorf "result too high: %d" [result]))
  else
    ret None.

(** [func NewGetNumber(store database.Store) func(int) error] *)
Definition NewGetNumber (store : option loc) : int -> M (World T) (option error) :=
  fun ID =>
    do '(result, err) <- Store_Get store ID;
    if decide (err ≠ None) then
      ret err
    else if result >? 10 then
      ret (Some (fmt.Errorf "result too high: %d" [result]))
    else
      ret None.

End WithStore.

End service.

(** ** Package main: the composition root *)
Module main.
Import service.

(** [store := database.NewStore(db)], in a world of [store] objects. *)
Definition NewStore (db : option loc) : M (World database.store) (option loc) :=
  zoom stores (fun h w => mkWorld (services w) h (calls w)) (database.NewStore db).

(** The two statements of [main] that build the service:
    [store := database.NewStore(db)] and
    [service := &service.Service{Store: store}]. *)
Definition compose (db : option loc) : M (World database.store) (option loc) :=
  do store <- NewStore db;
  new_Service store.

End main.

(** * Properties *)

Import service.

(** [s] points to the Service value [v] in the world [w]. *)
Definition points_to {T} (w : World T) (s : option loc) (v : Service) : Prop :=
  s ≫= (services w !!.) = Some v.

(** Reading a decimal numeral back, with the standard library's reader. *)
Definition parse_decimal (s : string) : option Z :=
  Z.of_int <$> NilZero.int_of_string s.

(** The decision of the Number Service as a function of what the lookup
    returned: a lookup error is handed on, a value above 10 gives the
    validation error, anything else gives no error. *)
Definition verdict (v : int) (err : option error) : option error :=
  match err with
  | Some e => Some e
  | None =>
      if decide (10 < v)
      then Some (errorString ("result too high: " +:+ fmt.fmt_d v))
      else None
  end.

(** The set-up of the tests of [service_test.go]:
    [m := new(database.MockStore)], [m.On("Get", 2).Return(r0, r1)] and
    [s := Service{m}], with [s] at address 1 and [m] at address 2. *)
Definition test_mock (returnArguments : mock.arguments) : database.MockStore :=
  database.mkMockStore
    (final (mock.On_Return "Get" [mock.VInt 2] returnArguments (mock.mkMock [] []))).

Definition test_world (returnArguments : mock.arguments) : World database.MockStore :=
  mkWorld {[ 1%positive := mkService (Some 2%positive) ]}
          {[ 2%positive := test_mock returnArguments ]}
          [].

(** The three tests: [Return(7, nil)], [Return(24, nil)] and
    [Return(0, errors.New("failed"))]. *)
Definition scenario_A : World database.MockStore :=
  test_world [mock.VInt 7; mock.VNil].
Definition scenario_B : World database.MockStore :=
  test_world [mock.VInt 24; mock.VNil].
Definition scenario_C : World database.MockStore :=
  test_world [mock.VInt 0; mock.VError (errors.New "failed")].

(** The world after the call [m.Get(2)] alone, for [m] at address 2. *)
Definition after_lookup (w : World database.MockStore) : World database.MockStore :=
  final (Store_Get (Some 2%positive) 2 w).

(** Two Services, at addresses 1 and 4, that share the mock at address
    2, next to a second mock at address 3 that no Service refers to. *)
Definition shared_world : World database.MockStore :=
  mkWorld {[ 1%positive := mkService (Some 2%positive);
             4%positive := mkService (Some 2%positive) ]}
          {[ 2%positive := test_mock [mock.VInt 7; mock.VNil];
             3%positive := test_mock [mock.VInt 24; mock.VNil] ]}
          [].

(** What the tests observe of the mock at address [l] with
    [m.AssertExpectations(t)]. *)
Definition expectations_met (w : World database.MockStore) (l : loc) : option bool :=
  mock.AssertExpectations ∘ database.Mock <$> stores w !! l.

(** A world with nothing in it, where [main] starts. *)
Definition empty_world {T} : World T := mkWorld ∅ ∅ [].

(** A canned error result as the [interface{}] value given to [Return]. *)
Definition to_value (err : option error) : mock.value :=
  match err with
  | Some e => mock.VError e
  | None => mock.VNil
  end.

(** The set-up of the tests for any identifier and any canned results:
    [m.On("Get", ID).Return(returnArguments...)] on a new mock at
    address 2, and [s := Service{m}] at address 1. *)
Definition mock_world (ID : int) (returnArguments : mock.arguments)
  : World database.MockStore :=
  mkWorld {[ 1%positive := mkService (Some 2%positive) ]}
          {[ 2%positive :=
               database.mkMockStore
                 (final (mock.On_Return "Get" [mock.VInt ID] returnArguments
                           (mock.mkMock [] []))) ]}
          [].

(** The mock [m] after [m.On("Get", ID).Return(rets...)]. *)
Definition registered (m : mock.Mock) (ID : int) (rets : mock.arguments)
  : database.MockStore :=
  database.mkMockStore (final (mock.On_Return "Get" [mock.VInt ID] rets m)).

(** The mock [m] has no expectation for the call [Get(ID)]. *)
Definition no_expectation (m : mock.Mock) (ID : int) : Prop :=
  forall c, c ∈ mock.ExpectedCalls m ->
            ~ (mock.Method c = "Get" /\ mock.Args c = [mock.VInt ID]).

(** The range of Go's [int] on a 64-bit platform. *)
Definition int_range (n : Z) : Prop := - 2 ^ 63 <= n < 2 ^ 63.

(** ** Package strconv (Go standard library), as [main] uses it

    [strconv.Atoi] on a 64-bit platform, with the [Err] field of the
    [*NumError] it returns as its second result. *)
Module strconv.

Inductive NumError : Type := ErrSyntax | ErrRange.

#[global] Instance NumError_eq_dec : EqDecision NumError.
Proof. solve_decision. Defined.

(** The value [c - '0'] of a byte between ['0'] and ['9']. *)
Definition digit (c : ascii) : option Z :=
  let n := Z.of_N (N_of_ascii c) in
  if decide (48 <= n <= 57) then Some (n - 48) else None.

Definition maxUint64 : Z := 2 ^ 64 - 1.

(** The loop of [ParseUint(s, 10, 64)], from the accumulator [n]: a
    byte that is no digit is a syntax error, an accumulator that would
    leave 64 bits is a range error. *)
Fixpoint ParseUint_from (s : string) (n : Z) : Z * option NumError :=
  match s with
  | EmptyString => (n, None)
  | String c rest =>
      match digit c with
      | None => (0, Some ErrSyntax)
      | Some d =>
          if decide (maxUint64 / 10 + 1 <= n) then (maxUint64, Some ErrRange)
          else
            let n1 := n * 10 + d in
            if decide (maxUint64 < n1) then (maxUint64, Some ErrRange)
            else ParseUint_from rest n1
      end
  end.

Definition ParseUint (s : string) : Z * option NumError :=
  match s with
  | EmptyString => (0, Some ErrSyntax)
  | _ => ParseUint_from s 0
  end.

(** [ParseInt(s, 10, 0)] *)
Definition ParseInt (s : string) : Z * option NumError :=
  match s with
  | EmptyString => (0, Some ErrSyntax)
  | String c rest =>
      let neg := bool_decide (c = "-"%char) in
      let s' := if decide (c = "+"%char \/ c = "-"%char) then rest else s in
      let '(un, err) := ParseUint s' in
      if decide (err = Some ErrSyntax) then (0, err)
      else if negb neg && bool_decide (2 ^ 63 <= un) then (2 ^ 63 - 1, Some ErrRange)
      else if neg && bool_decide (2 ^ 63 < un) then (- 2 ^ 63, Some ErrRange)
      else (if neg then - un else un, None)
  end.

(** The loop of the fast path of [Atoi]. *)
Fixpoint Atoi_fast (s : string) (n : Z) : option Z :=
  match s with
  | EmptyString => Some n
  | String ch rest =>
      match digit ch with
      | None => None
      | Some d => Atoi_fast rest (n * 10 + d)
      end
  end.

(** [strconv.Atoi]: the fast path for 1 to 18 bytes, [ParseInt]
    otherwise. *)
Definition Atoi (s : string) : int * option NumError :=
  match s with
  | String c rest =>
      if decide (String.length s < 19)%nat then
        let s1 := if decide (c = "-"%char \/ c = "+"%char) then rest else s in
        if decide (String.length s1 < 1)%nat then (0, Some ErrSyntax)
        else
          match Atoi_fast s1 0 with
          | None => (0, Some ErrSyntax)
          | Some n => (if decide (c = "-"%char) then - n else n, None)
          end
      else ParseInt s
  | EmptyString => ParseInt s
  end.

End strconv.

(** ** Package main: the command line loop *)
Module program.

(** The process: the objects in memory and what was written to the
    standard output. *)
Record Process (T : Type) : Type := mkProcess {
  world : World T;
  stdout : string
}.
Arguments mkProcess {T} world stdout.
Arguments world {T} p.
Arguments stdout {T} p.

Definition in_world {T A} (m : M (World T) A) : M (Process T) A :=
  zoom world (fun w p => mkProcess w (stdout p)) m.

Definition write {T} (text : string) : M (Process T) unit :=
  fun p => Returns tt (mkProcess (world p) (stdout p +:+ text)).

Definition newline : string := String (ascii_of_nat 10) EmptyString.

(** The name [%T] of the dynamic type of an error. *)
Definition type_name (e : error) : string :=
  match e with
  | errorString _ => "*errors.errorString"
  | wrapError _ _ => "*fmt.wrapError"
  end.

(** The verb [%v] on an operand of type [error]. *)
Definition fmt_v (e : option error) : string :=
  match e with
  | Some e => Error e
  | None => "<nil>"
  end.

Definition extra_v (e : option error) : string :=
  match e with
  | Some e => type_name e +:+ "=" +:+ Error e
  | None => "<nil>"
  end.

Definition extra (a : list (option error)) : string :=
  match a with
  | [] => ""
  | x :: a' =>
      "%!(EXTRA " +:+ extra_v x +:+
      fold_right (fun y rest => ", " +:+ extra_v y +:+ rest) ")" a'
  end.

(** [fmt.Sprintf] on operands of type [error], for formats made of
    literal text, the verb [%v] and the escape [%%]. *)
Fixpoint Sprintf (format : string) (a : list (option error)) : string :=
  match format with
  | EmptyString => extra a
  | String "%" EmptyString => "%!(NOVERB)" +:+ extra a
  | String "%" (String "v" rest) =>
      match a with
      | x :: a' => fmt_v x +:+ Sprintf rest a'
      | [] => "%!v(MISSING)" +:+ Sprintf rest []
      end
  | String "%" (String "%" rest) => String "%" (Sprintf rest a)
  | String c rest => String c (Sprintf rest a)
  end.

(** [fmt.Printf(format, a...)] and [fmt.Println(text)] *)
Definition Printf {T} (format : string) (a : list (option error)) : M (Process T) unit :=
  write (Sprintf format a).

Definition Println {T} (text : string) : M (Process T) unit :=
  write (text +:+ newline).

Section WithStore.
Context {T : Type} {impl : database.Store T}.

(** The body of the loop of [main], for the line [text] that
    [scanner.Text()] gives. *)
Definition body (service : option loc) (text : string) : M (Process T) unit :=
  let '(ID, _) := strconv.Atoi text in
  do err <- in_world (GetNumber service ID);
  if decide (err ≠ None) then
    Printf "result invalid: %v" [err]
  else
    Println "result valid".

(** [for scanner.Scan() { ... }] over the lines the scanner yields. *)
Fixpoint loop (service : option loc) (lines : list string) : M (Process T) unit :=
  match lines with
  | [] => ret tt
  | text :: rest => do _ <- body service text; loop service rest
  end.

End WithStore.

(** [func main()], for the handle [db] that [sql.Open] gave and the
    lines of the standard input. *)
Definition main (db : option loc) (lines : list string)
  : M (Process database.store) unit :=
  do service <- in_world (main.compose db);
  loop service lines.

End program.

(** The number a decimal numeral denotes, read from the most
    significant digit with the accumulator [n]. *)
Fixpoint horner (d : Decimal.uint) (n : Z) : Z :=
  match d with
  | Decimal.Nil => n
  | Decimal.D0 d => horner d (n * 10 + 0)
  | Decimal.D1 d => horner d (n * 10 + 1)
  | Decimal.D2 d => horner d (n * 10 + 2)
  | Decimal.D3 d => horner d (n * 10 + 3)
  | Decimal.D4 d => horner d (n * 10 + 4)
  | Decimal.D5 d => horner d (n * 10 + 5)
  | Decimal.D6 d => horner d (n * 10 + 6)
  | Decimal.D7 d => horner d (n * 10 + 7)
  | Decimal.D8 d => horner d (n * 10 + 8)
  | Decimal.D9 d => horner d (n * 10 + 9)
  end.

(** What the loop of [main] prints for a result of GetNumber. *)
Definition message (r : option error) : string :=
  match r with
  | None => "result valid" +:+ program.newline
  | Some e => "result invalid: " +:+ Error e
  end.

(** The identifier [main] looks up for a line. *)
Definition line_ID (text : string) : int := fst (strconv.Atoi text).

(** What [main] prints for its lines when every result is valid. *)
Definition valid_output (lines : list string) : string :=
  fold_right (fun _ rest => message None +:+ rest) "" lines.

(** ** Formatting *)

Lemma append_empty_r (s : string) : s +:+ "" = s.
Proof.
  induction s as [|c s IH]; [reflexivity|].
  change (String c (s +:+ "") = String c s). now rewrite IH.
Qed.

Lemma Sprintf_result_too_high (v : int) :
  fmt.Sprintf "result too high: %d" [v] = "result too high: " +:+ fmt.fmt_d v.
Proof.
  change (fmt.Sprintf "result too high: %d" [v])
    with ("result too high: " +:+ (fmt.fmt_d v +:+ "")).
  now rewrite append_empty_r.
Qed.

Example Sprintf_24 :
  fmt.Sprintf "result too high: %d" [24] = "result too high: 24".
Proof. reflexivity. Qed.

Example Sprintf_negative :
  fmt.Sprintf "result too high: %d" [-3] = "result too high: -3".
Proof. reflexivity. Qed.

Example Sprintf_operands :
  fmt.Sprintf "%d%% of %d" [50] = "50% of %!d(MISSING)" /\
  fmt.Sprintf "%d" [1; 2; 3] = "1%!(EXTRA int=2, int=3)".
Proof. split; reflexivity. Qed.

Lemma to_int_proper (v : Z) : Z.to_int v <> Decimal.Pos Decimal.Nil /\
                              Z.to_int v <> Decimal.Neg Decimal.Nil.
Proof.
  destruct v as [|p|p]; simpl; split; try discriminate;
    intros [= E]; exact (DecimalPos.Unsigned.to_uint_nonnil p E).
Qed.

Lemma parse_fmt_d (v : int) : parse_decimal (fmt.fmt_d v) = Some v.
Proof.
  unfold parse_decimal, fmt.fmt_d.
  destruct (to_int_proper v) as [Hp Hn].
  rewrite (NilZero.isi _ Hp Hn). simpl. now rewrite DecimalZ.of_to.
Qed.

(** ** Running [GetNumber] and [NewGetNumber] *)

Section Running.
Context {T : Type} {impl : database.Store T}.
Implicit Types (w : World T) (s store : option loc) (ID v : int).

Lemma get_Store_points_to w s x :
  points_to w s x -> get_Store s w = Returns (Store x) w.
Proof. unfold points_to, get_Store. now intros ->. Qed.

Lemma get_Store_nil w s :
  s ≫= (services w !!.) = None -> get_Store s w = Panics nil_dereference w.
Proof. unfold get_Store. now intros ->. Qed.

Lemma decide_verdict v err :
  (if decide (err ≠ None) then ret err
   else if v >? 10 then ret (Some (fmt.Errorf "result too high: %d" [v]))
        else ret None) = ret (S := World T) (verdict v err).
Proof.
  unfold verdict, fmt.Errorf, errors.New.
  rewrite Sprintf_result_too_high.
  destruct err as [e|]; [now rewrite decide_True|].
  rewrite decide_False by (intros H; now apply H).
  destruct (Z.gtb_spec v 10) as [H|H]; [rewrite decide_True | rewrite decide_False];
    (reflexivity || lia).
Qed.

Lemma NewGetNumber_returns w store ID v err w1 :
  Store_Get store ID w = Returns (v, err) w1 ->
  NewGetNumber store ID w = Returns (verdict v err) w1.
Proof.
  intros H. unfold NewGetNumber, bind. rewrite H. cbv beta iota zeta.
  now rewrite decide_verdict.
Qed.

Lemma NewGetNumber_panics w store ID p w1 :
  Store_Get store ID w = Panics p w1 ->
  NewGetNumber store ID w = Panics p w1.
Proof. intros H. unfold NewGetNumber, bind. now rewrite H. Qed.

Lemma GetNumber_returns w s store ID v err w1 :
  points_to w s (mkService store) ->
  Store_Get store ID w = Returns (v, err) w1 ->
  GetNumber s ID w = Returns (verdict v err) w1.
Proof.
  intros Hs H. unfold GetNumber, bind at 1.
  rewrite (get_Store_points_to _ _ _ Hs). simpl Store.
  unfold bind. rewrite H. cbv beta iota zeta.
  now rewrite decide_verdict.
Qed.

Lemma GetNumber_panics w s store ID p w1 :
  points_to w s (mkService store) ->
  Store_Get store ID w = Panics p w1 ->
  GetNumber s ID w = Panics p w1.
Proof.
  intros Hs H. unfold GetNumber, bind at 1.
  rewrite (get_Store_points_to _ _ _ Hs). simpl Store.
  unfold bind. now rewrite H.
Qed.

(** What the interface call does to the world. *)

Lemma Store_Get_nil w ID : Store_Get None ID w = Panics nil_dereference w.
Proof. reflexivity. Qed.

Lemma Store_Get_final_services w store ID :
  services (final (Store_Get store ID w)) = services w.
Proof.
  unfold Store_Get, zoom. destruct store as [l|]; [|reflexivity].
  destruct (stores w !! l) as [o|]; [|reflexivity].
  now destruct (database.Get ID o).
Qed.

Lemma Store_Get_final_dom w store ID :
  dom (stores (final (Store_Get store ID w))) = dom (stores w).
Proof.
  unfold Store_Get, zoom. destruct store as [l|]; [|reflexivity].
  destruct (stores w !! l) as [o|] eqn:Hl; [|reflexivity].
  assert (l ∈ dom (stores w)) as Hin by (apply elem_of_dom; eauto).
  destruct (database.Get ID o); simpl; rewrite dom_insert_L;
    apply set_eq; intros k; rewrite elem_of_union, elem_of_singleton;
    (split; [intros [->|]; assumption | auto]).
Qed.

Lemma Store_Get_final_other w store ID l :
  store ≠ Some l ->
  stores (final (Store_Get store ID w)) !! l = stores w !! l.
Proof.
  intros Hne. unfold Store_Get, zoom. destruct store as [l'|]; [|reflexivity].
  destruct (stores w !! l') as [o|]; [|reflexivity].
  assert (l' ≠ l) by congruence.
  destruct (database.Get ID o); simpl; now rewrite lookup_insert_ne.
Qed.

Lemma Store_Get_final_calls w l ID :
  is_Some (stores w !! l) ->
  calls (final (Store_Get (Some l) ID w)) = (calls w ++ [(l, ID)])%list.
Proof.
  intros [o Ho]. unfold Store_Get, zoom. rewrite Ho.
  now destruct (database.Get ID o).
Qed.

Lemma GetNumber_final w s store ID :
  points_to w s (mkService store) ->
  final (GetNumber s ID w) = final (Store_Get store ID w).
Proof.
  intros Hs. destruct (Store_Get store ID w) as [[v err] w1|p w1] eqn:Hget.
  - now rewrite (GetNumber_returns _ _ _ _ _ _ _ Hs Hget).
  - now rewrite (GetNumber_panics _ _ _ _ _ _ Hs Hget).
Qed.

Lemma GetNumber_nil_receiver w s ID :
  s ≫= (services w !!.) = None ->
  GetNumber s ID w = Panics nil_dereference w.
Proof.
  intros Hs. unfold GetNumber, bind. now rewrite (get_Store_nil _ _ Hs).
Qed.

Lemma points_to_cases w s :
  (exists store, points_to w s (mkService store)) \/ s ≫= (services w !!.) = None.
Proof.
  unfold points_to. destruct (s ≫= (services w !!.)) as [[store]|]; eauto.
Qed.

(** C1: whenever the Store's Get(id) returns a value v with no error and
    v is at most 10, GetNumber(id) returns nil; the world it leaves is
    the one the lookup left. *)
Theorem GetNumber_value_le_10_no_error w s store ID v w1 :
  points_to w s (mkService store) ->
  Store_Get store ID w = Returns (v, None) w1 ->
  v <= 10 ->
  GetNumber s ID w = Returns None w1.
Proof.
  intros Hs Hget Hv.
  rewrite (GetNumber_returns _ _ _ _ _ _ _ Hs Hget).
  unfold verdict. now rewrite decide_False by lia.
Qed.

(** C2: whenever the Store's Get(id) returns a value v with no error and
    v is above 10, GetNumber(id) returns an error whose message is
    exactly "result too high: " followed by v in decimal (the text that
    reads back as v). *)
Theorem GetNumber_value_gt_10_too_high w s store ID v w1 :
  points_to w s (mkService store) ->
  Store_Get store ID w = Returns (v, None) w1 ->
  v > 10 ->
  exists e,
    GetNumber s ID w = Returns (Some e) w1 /\
    Error e = "result too high: " +:+ fmt.fmt_d v /\
    parse_decimal (fmt.fmt_d v) = Some v.
Proof.
  intros Hs Hget Hv.
  exists (errorString ("result too high: " +:+ fmt.fmt_d v)).
  rewrite (GetNumber_returns _ _ _ _ _ _ _ Hs Hget).
  unfold verdict. rewrite decide_True by lia.
  repeat split. apply parse_fmt_d.
Qed.

(** C3: whenever the Store's Get(id) returns a non-nil error err, with
    any value, GetNumber(id) returns exactly err: the same error value,
    not wrapped, and no validation error in its place. *)
Theorem GetNumber_store_error_unchanged w s store ID v err w1 :
  points_to w s (mkService store) ->
  Store_Get store ID w = Returns (v, Some err) w1 ->
  GetNumber s ID w = Returns (Some err) w1.
Proof.
  intros Hs Hget. now rewrite (GetNumber_returns _ _ _ _ _ _ _ Hs Hget).
Qed.

(** C4: the threshold is strict: a lookup that returns (10, nil) makes
    GetNumber return nil, a lookup that returns (11, nil) makes it
    return an error. *)
Theorem GetNumber_threshold_strict w s store ID w1 :
  points_to w s (mkService store) ->
  (Store_Get store ID w = Returns (10, None) w1 ->
   GetNumber s ID w = Returns None w1) /\
  (Store_Get store ID w = Returns (11, None) w1 ->
   exists e, GetNumber s ID w = Returns (Some e) w1).
Proof.
  intros Hs. split; intros Hget;
    rewrite (GetNumber_returns _ _ _ _ _ _ _ Hs Hget); unfold verdict.
  - now rewrite decide_False by lia.
  - rewrite decide_True by lia. eauto.
Qed.

(** C5: for every Store, every Service holding it and every identifier,
    the method GetNumber of the Service and the closure NewGetNumber
    built on the same Store give the same outcome: the same returned
    error or the same panic, and the same world. *)
Theorem GetNumber_NewGetNumber_same w s store ID :
  points_to w s (mkService store) ->
  GetNumber s ID w = NewGetNumber store ID w.
Proof.
  intros Hs. destruct (Store_Get store ID w) as [[v err] w1|p w1] eqn:Hget.
  - rewrite (GetNumber_returns _ _ _ _ _ _ _ Hs Hget).
    now rewrite (NewGetNumber_returns _ _ _ _ _ _ Hget).
  - rewrite (GetNumber_panics _ _ _ _ _ _ Hs Hget).
    now rewrite (NewGetNumber_panics _ _ _ _ _ Hget).
Qed.

(** C7: every call of GetNumber(id) on a Service that holds a Store makes
    exactly one call of the Store's Get, with the identifier id it was
    given: the call log grows by that one entry, whether the lookup
    returns a value, returns an error or panics. *)
Theorem GetNumber_one_lookup w s l ID :
  points_to w s (mkService (Some l)) ->
  is_Some (stores w !! l) ->
  calls (final (GetNumber s ID w)) = (calls w ++ [(l, ID)])%list.
Proof.
  intros Hs Hl. rewrite (GetNumber_final _ _ _ _ Hs).
  now apply Store_Get_final_calls.
Qed.

(** C8: GetNumber leaves every Service as it was, the one it is called
    on included; it creates and destroys no store object, it leaves
    every store object other than the one its Store field refers to
    unchanged, and the world it leaves is the one the call of Get
    through the Store field left: nothing is changed by GetNumber's own
    statements. *)
Theorem GetNumber_frame w s ID :
  services (final (GetNumber s ID w)) = services w /\
  dom (stores (final (GetNumber s ID w))) = dom (stores w) /\
  (forall l, Store <$> (s ≫= (services w !!.)) ≠ Some (Some l) ->
             stores (final (GetNumber s ID w)) !! l = stores w !! l) /\
  (forall store, points_to w s (mkService store) ->
                 final (GetNumber s ID w) = final (Store_Get store ID w)).
Proof.
  destruct (points_to_cases w s) as [[store Hs]|Hs].
  - rewrite (GetNumber_final _ _ _ _ Hs). repeat split.
    + apply Store_Get_final_services.
    + apply Store_Get_final_dom.
    + intros l Hl. apply Store_Get_final_other.
      unfold points_to in Hs. rewrite Hs in Hl. simpl in Hl. congruence.
    + intros store' Hs'. unfold points_to in Hs, Hs'. congruence.
  - rewrite (GetNumber_nil_receiver _ _ _ Hs). simpl. repeat split.
    intros store Hs'. unfold points_to in Hs'. congruence.
Qed.

(** C9: building a Service checks nothing about the Store: it succeeds
    with a nil Store; and GetNumber on a Service whose Store is nil
    panics with a nil dereference, for every identifier, leaving the
    world as it was, and so never returns a result.  The panic is that
    of the call of Get on the nil Store: reading the field succeeds. *)
Theorem GetNumber_nil_Store_panics w :
  (exists s w1, new_Service None w = Returns s w1 /\
                points_to w1 s (mkService None)) /\
  (forall s ID, points_to w s (mkService None) ->
                get_Store s w = Returns None w /\
                Store_Get None ID w = Panics nil_dereference w /\
                GetNumber s ID w = Panics nil_dereference w /\
                forall r w1, GetNumber s ID w ≠ Returns r w1).
Proof.
  split.
  - eexists _, _. split; [reflexivity|].
    unfold points_to. simpl. apply lookup_insert_eq.
  - intros s ID Hs.
    rewrite (GetNumber_panics _ _ _ _ _ _ Hs (Store_Get_nil w ID)).
    repeat split; [exact (get_Store_points_to _ _ _ Hs) | discriminate].
Qed.

End Running.

(** ** The decision as a function of the lookup *)

(** C6: the result of GetNumber is a fixed function, [verdict], of the
    pair the Store's Get returned: two calls, on any Services over any
    Store implementations and in any worlds, whose lookups return the
    same pair, return the same result; and each leaves the world exactly
    as its lookup left it, so GetNumber has no effect of its own. *)
Theorem GetNumber_function_of_lookup
    {T1 : Type} {impl1 : database.Store T1} {T2 : Type} {impl2 : database.Store T2}
    (w : World T1) (w' : World T2) (s s' store store' : option loc)
    (ID ID' v : int) (err : option error) (w1 : World T1) (w1' : World T2) :
  points_to w s (mkService store) ->
  points_to w' s' (mkService store') ->
  Store_Get store ID w = Returns (v, err) w1 ->
  Store_Get store' ID' w' = Returns (v, err) w1' ->
  GetNumber s ID w = Returns (verdict v err) w1 /\
  GetNumber s' ID' w' = Returns (verdict v err) w1'.
Proof.
  intros Hs Hs' Hget Hget'. split.
  - exact (GetNumber_returns _ _ _ _ _ _ _ Hs Hget).
  - exact (GetNumber_returns _ _ _ _ _ _ _ Hs' Hget').
Qed.

(** ** The production store *)

Lemma store_GetNumber (w : World database.store) s l ID :
  points_to w s (mkService (Some l)) ->
  is_Some (stores w !! l) ->
  GetNumber s ID w =
    Returns None (mkWorld (services w) (stores w) (calls w ++ [(l, ID)])).
Proof.
  intros Hs [d Hd].
  apply (GetNumber_returns w s (Some l) ID 0 None); [assumption|].
  unfold Store_Get. rewrite Hd.
  change (database.Get ID) with (database.store_Get ID).
  unfold zoom, database.store_Get, ret. now rewrite (insert_id _ _ _ Hd).
Qed.

(** C10: the Get of the production store returns (0, nil) for every
    identifier, whatever database handle the store holds, and leaves the
    store as it was; so GetNumber returns nil for every identifier on
    every Service whose Store is such a store, and in particular on the
    Service that main composes from NewStore. *)
Theorem production_store_always_valid :
  (forall (ID : int) (d : database.store),
     database.Get ID d = Returns (0, None) d) /\
  (forall (w : World database.store) s l ID,
     points_to w s (mkService (Some l)) ->
     is_Some (stores w !! l) ->
     exists w1, GetNumber s ID w = Returns None w1) /\
  (forall (db : option loc) (w : World database.store) (ID : int),
     exists s w1 w2, main.compose db w = Returns s w1 /\
                     GetNumber s ID w1 = Returns None w2).
Proof.
  split; [reflexivity|]. split.
  - intros w s l ID Hs Hl. eexists. exact (store_GetNumber w s l ID Hs Hl).
  - intros db w ID. eexists _, _, _. split; [reflexivity|].
    apply store_GetNumber.
    + unfold points_to. simpl. apply lookup_insert_eq.
    + simpl. rewrite lookup_insert_eq. eauto.
Qed.

(** * The scenarios of the tests, and other instances *)


(** Scenario A: the mock returns (7, nil) for id 2, GetNumber(2) returns nil. *)
Lemma GetNumber_value_le_10_no_error_witness :
  GetNumber (Some 1%positive) 2 scenario_A = Returns None (after_lookup scenario_A).
Proof.
  apply (GetNumber_value_le_10_no_error _ _ (Some 2%positive) _ 7);
    [reflexivity | reflexivity | discriminate].
Defined.

(** Scenario B: the mock returns (24, nil) for id 2, GetNumber(2) returns
    an error with the message "result too high: 24". *)
Lemma GetNumber_value_gt_10_too_high_witness :
  exists e, GetNumber (Some 1%positive) 2 scenario_B = Returns (Some e) (after_lookup scenario_B)
            /\ Error e = "result too high: 24".
Proof.
  destruct (GetNumber_value_gt_10_too_high scenario_B (Some 1%positive)
              (Some 2%positive) 2 24 (after_lookup scenario_B))
    as (e & Hrun & Hmsg & _); [reflexivity | reflexivity | reflexivity |].
  exists e. split; [exact Hrun | exact Hmsg].
Defined.

(** Scenario C: the mock returns (0, "failed") for id 2, GetNumber(2)
    returns that error. *)
Lemma GetNumber_store_error_unchanged_witness :
  GetNumber (Some 1%positive) 2 scenario_C =
  Returns (Some (errors.New "failed")) (after_lookup scenario_C).
Proof.
  apply (GetNumber_store_error_unchanged _ _ (Some 2%positive) _ 0);
    reflexivity.
Defined.

Lemma GetNumber_threshold_strict_witness :
  GetNumber (Some 1%positive) 2 (test_world [mock.VInt 10; mock.VNil]) =
    Returns None (after_lookup (test_world [mock.VInt 10; mock.VNil])) /\
  exists e, GetNumber (Some 1%positive) 2 (test_world [mock.VInt 11; mock.VNil]) =
    Returns (Some e) (after_lookup (test_world [mock.VInt 11; mock.VNil])).
Proof.
  split.
  - apply (GetNumber_threshold_strict _ _ (Some 2%positive)); reflexivity.
  - apply (GetNumber_threshold_strict _ _ (Some 2%positive)); reflexivity.
Defined.

Lemma GetNumber_NewGetNumber_same_witness :
  GetNumber (Some 1%positive) 2 scenario_B = NewGetNumber (Some 2%positive) 2 scenario_B.
Proof. apply GetNumber_NewGetNumber_same. reflexivity. Defined.

(** The mock configured to return (0, nil) and the production store
    that main composes give the same result. *)
Lemma GetNumber_function_of_lookup_witness :
  GetNumber (Some 1%positive) 2 (test_world [mock.VInt 0; mock.VNil]) =
    Returns None (after_lookup (test_world [mock.VInt 0; mock.VNil])) /\
  GetNumber (Some 1%positive) 42 (final (main.compose None empty_world)) =
    Returns None (final (Store_Get (Some 1%positive) 42
                           (final (main.compose None empty_world)))).
Proof.
  apply (GetNumber_function_of_lookup _ _ _ _ (Some 2%positive) (Some 1%positive)
           _ _ 0 None); reflexivity.
Defined.

Lemma GetNumber_one_lookup_witness :
  calls (final (GetNumber (Some 4%positive) 2 shared_world)) = [(2%positive, 2)].
Proof.
  apply (GetNumber_one_lookup shared_world (Some 4%positive) 2%positive 2);
    [reflexivity | eexists; reflexivity].
Defined.

Lemma GetNumber_frame_witness :
  services (final (GetNumber (Some 1%positive) 2 shared_world)) = services shared_world /\
  stores (final (GetNumber (Some 1%positive) 2 shared_world)) !! 3%positive =
    stores shared_world !! 3%positive.
Proof.
  destruct (GetNumber_frame shared_world (Some 1%positive) 2) as (Hsv & _ & Hother & _).
  split; [exact Hsv | apply Hother; discriminate].
Defined.

Lemma GetNumber_nil_Store_panics_witness :
  let w := final (new_Service (T := database.store) None empty_world) in
  GetNumber (Some 1%positive) 7 w = Panics nil_dereference w.
Proof.
  intros w.
  destruct (GetNumber_nil_Store_panics w) as [_ Hpanic].
  apply (Hpanic (Some 1%positive) 7). reflexivity.
Defined.

Lemma production_store_always_valid_witness :
  exists w1, GetNumber (Some 1%positive) 42 (final (main.compose None empty_world)) =
             Returns None w1.
Proof.
  destruct production_store_always_valid as (_ & Hany & _).
  apply (Hany _ (Some 1%positive) 1%positive 42);
    [reflexivity | eexists; reflexivity].
Defined.

(** The call of GetNumber in scenario A is observable besides its
    result: the mock has recorded the call, which is what the test then
    checks with AssertExpectations. *)
Lemma GetNumber_observable_on_mock :
  GetNumber (Some 1%positive) 2 scenario_A =
    Returns None (final (GetNumber (Some 1%positive) 2 scenario_A)) /\
  stores (final (GetNumber (Some 1%positive) 2 scenario_A)) ≠ stores scenario_A /\
  expectations_met scenario_A 2%positive = Some false /\
  expectations_met (final (GetNumber (Some 1%positive) 2 scenario_A)) 2%positive
    = Some true.
Proof.
  split; [reflexivity|]. split; [|split; reflexivity].
  intros Heq. apply (f_equal (fun h => database.Mock <$> h !! 2%positive)) in Heq.
  vm_compute in Heq. discriminate Heq.
Qed.


(** * Further properties of package service *)

Lemma verdict_None v err : verdict v err = None <-> err = None /\ v <= 10.
Proof.
  unfold verdict. destruct err as [e|].
  - split; [discriminate | intros [? _]; discriminate].
  - destruct (decide (10 < v)); split.
    + discriminate.
    + intros [_ ?]. lia.
    + intros _. split; [reflexivity | lia].
    + reflexivity.
Qed.

Lemma verdict_Some v err e :
  verdict v err = Some e <->
  err = Some e \/
  (err = None /\ v > 10 /\ e = errorString ("result too high: " +:+ fmt.fmt_d v)).
Proof.
  unfold verdict. destruct err as [e'|].
  - split; [intros [= ->]; now left | intros [[= ->]|[? _]]; [reflexivity | discriminate]].
  - destruct (decide (10 < v)); split.
    + intros [= <-]. right. repeat split. lia.
    + intros [?|(_ & _ & ->)]; [discriminate | reflexivity].
    + discriminate.
    + intros [?|(_ & ? & _)]; [discriminate | lia].
Qed.

Section Service_more.
Context {T : Type} {impl : database.Store T}.
Implicit Types (w : World T) (s store : option loc) (ID v : int).

(** X1: GetNumber returns nil only for a valid result: it returns nil,
    in the world [w1], exactly when the lookup returned, in [w1], no
    error and a value of at most 10.  A value above 10 is never
    accepted. *)
Theorem GetNumber_nil_iff_valid w s store ID w1 :
  points_to w s (mkService store) ->
  GetNumber s ID w = Returns None w1 <->
  exists v, Store_Get store ID w = Returns (v, None) w1 /\ v <= 10.
Proof.
  intros Hs. split.
  - destruct (Store_Get store ID w) as [[v err] w2|p w2] eqn:Hget.
    + rewrite (GetNumber_returns _ _ _ _ _ _ _ Hs Hget). intros [= Hv ->].
      apply verdict_None in Hv as [-> Hle]. eauto.
    + rewrite (GetNumber_panics _ _ _ _ _ _ Hs Hget). discriminate.
  - intros (v & Hget & Hle).
    rewrite (GetNumber_returns _ _ _ _ _ _ _ Hs Hget).
    f_equal. apply verdict_None. auto.
Qed.

(** X2: the closure built by NewGetNumber returns a non-nil error [e]
    exactly when the lookup returned the error [e], or returned no
    error and a value above 10 of which [e] is the validation error;
    and it panics exactly when the lookup panics, with the same panic. *)
Theorem NewGetNumber_error_iff w store ID e w1 :
  (NewGetNumber store ID w = Returns (Some e) w1 <->
   (exists v, Store_Get store ID w = Returns (v, Some e) w1) \/
   (exists v, Store_Get store ID w = Returns (v, None) w1 /\ v > 10 /\
              e = errorString ("result too high: " +:+ fmt.fmt_d v))) /\
  (forall p, NewGetNumber store ID w = Panics p w1 <->
             Store_Get store ID w = Panics p w1).
Proof.
  destruct (Store_Get store ID w) as [[v err] w2|p' w2] eqn:Hget.
  - rewrite (NewGetNumber_returns _ _ _ _ _ _ Hget). split.
    + split.
      * intros [= Hv ->]. apply verdict_Some in Hv as [->|(-> & Hgt & ->)]; eauto.
      * intros [(v' & [= -> -> ->])|(v' & [= -> -> ->] & Hgt & ->)];
          f_equal; apply verdict_Some; auto.
    + intros p. split; discriminate.
  - rewrite (NewGetNumber_panics _ _ _ _ _ Hget). split.
    + split; [discriminate | intros [(v & ?)|(v & ? & _)]; discriminate].
    + intros p. split; intros [= -> ->]; reflexivity.
Qed.

(** X3: GetNumber recovers from no panic and raises none of its own
    but the nil dereference of its receiver: it panics exactly when the
    receiver points to no Service (a nil dereference, before any
    lookup, the world unchanged) or when the lookup through the Store
    of the Service panics, with that panic and in that world. *)
Theorem GetNumber_panics_iff w s ID p w1 :
  GetNumber s ID w = Panics p w1 <->
  (s ≫= (services w !!.) = None /\ p = nil_dereference /\ w1 = w) \/
  (exists store, points_to w s (mkService store) /\
                 Store_Get store ID w = Panics p w1).
Proof.
  destruct (points_to_cases w s) as [[store Hs]|Hs].
  - destruct (Store_Get store ID w) as [[v err] w2|p' w2] eqn:Hget.
    + rewrite (GetNumber_returns _ _ _ _ _ _ _ Hs Hget). split; [discriminate|].
      unfold points_to in *.
      intros [(Hn & _)|(store' & Hs' & Hget')]; [congruence|].
      assert (store' = store) as -> by congruence. congruence.
    + rewrite (GetNumber_panics _ _ _ _ _ _ Hs Hget). split.
      * intros [= -> ->]. right. eauto.
      * unfold points_to in *.
        intros [(Hn & _)|(store' & Hs' & Hget')]; [congruence|].
        assert (store' = store) as -> by congruence. congruence.
  - rewrite (GetNumber_nil_receiver _ _ _ Hs). split.
    + intros [= <- <-]. left. auto.
    + intros [(_ & -> & ->)|(store & Hs' & _)]; [reflexivity|].
      unfold points_to in Hs'. congruence.
Qed.

(** X4: a Service has no state but its Store: two Services that hold
    the same Store give the same outcome and leave the same world, for
    every identifier. *)
Theorem GetNumber_same_on_shared_Store w s s' store ID :
  points_to w s (mkService store) ->
  points_to w s' (mkService store) ->
  GetNumber s ID w = GetNumber s' ID w.
Proof.
  intros Hs Hs'.
  destruct (Store_Get store ID w) as [[v err] w1|p w1] eqn:Hget.
  - rewrite (GetNumber_returns _ _ _ _ _ _ _ Hs Hget).
    now rewrite (GetNumber_returns _ _ _ _ _ _ _ Hs' Hget).
  - rewrite (GetNumber_panics _ _ _ _ _ _ Hs Hget).
    now rewrite (GetNumber_panics _ _ _ _ _ _ Hs' Hget).
Qed.

End Service_more.

Section Service_messages.
Context {T : Type} {impl : database.Store T}.
Implicit Types (w : World T) (s store : option loc) (ID v : int).

(** X5: the value can be read back from the validation error: when the
    lookup returned the value [v] and no error and GetNumber returned
    an error, the text of that error after "result too high: " is a
    decimal numeral that reads as [v]. *)
Theorem validation_error_reads_back w s store ID v w1 e w2 d :
  points_to w s (mkService store) ->
  Store_Get store ID w = Returns (v, None) w1 ->
  GetNumber s ID w = Returns (Some e) w2 ->
  Error e = "result too high: " +:+ d ->
  parse_decimal d = Some v.
Proof.
  intros Hs Hget Hrun Hmsg.
  rewrite (GetNumber_returns _ _ _ _ _ _ _ Hs Hget) in Hrun.
  assert (verdict v None = Some e) as Hv by congruence.
  apply verdict_Some in Hv as [Hv|(_ & _ & ->)]; [discriminate|].
  simpl in Hmsg. apply (inj (String.append _)) in Hmsg as <-.
  apply parse_fmt_d.
Qed.

End Service_messages.


(** * Properties of the test double *)

Lemma matches_true methodName args c :
  mock.matches methodName args c = true <->
  mock.Method c = methodName /\ mock.Args c = args.
Proof.
  unfold mock.matches. rewrite andb_true_iff, !bool_decide_eq_true. reflexivity.
Qed.

Lemma find_none_not_matching methodName args (l : list mock.Call) :
  (forall c, c ∈ l -> ~ (mock.Method c = methodName /\ mock.Args c = args)) ->
  List.find (mock.matches methodName args) l = None.
Proof.
  induction l as [|c l IH]; intros H; [reflexivity|]. simpl.
  destruct (mock.matches methodName args c) eqn:Hc.
  - apply matches_true in Hc. exfalso. apply (H c); [left | exact Hc].
  - apply IH. intros c' Hin. apply H. now right.
Qed.

Lemma find_registered methodName args rets (l : list mock.Call) :
  List.find (mock.matches methodName args) l = None ->
  List.find (mock.matches methodName args) (l ++ [mock.mkCall methodName args rets])
  = Some (mock.mkCall methodName args rets).
Proof.
  induction l as [|c l IH]; simpl.
  - intros _. assert (mock.matches methodName args (mock.mkCall methodName args rets) = true)
      as -> by (apply matches_true; split; reflexivity). reflexivity.
  - destruct (mock.matches methodName args c); [discriminate | exact IH].
Qed.

(** What [MockStore.Get] does once [Called] has found the expectation
    [c]: the call is recorded, then the return arguments are read. *)
Lemma MockStore_Get_found ID (m : database.MockStore) c :
  List.find (mock.matches "Get" [mock.VInt ID]) (mock.ExpectedCalls (database.Mock m))
  = Some c ->
  database.MockStore_Get ID m =
  (do v0 <- mock.Get (mock.ReturnArguments c) 0;
   do r0 <- mock.assert_int v0;
   do r1 <- mock.Error (mock.ReturnArguments c) 1;
   ret (r0, r1))
    (database.mkMockStore
       (mock.mkMock (mock.ExpectedCalls (database.Mock m))
                    (mock.Calls (database.Mock m) ++ [c]))).
Proof.
  intros Hfind. unfold database.MockStore_Get at 1, bind at 1.
  unfold database.on_Mock, zoom, mock.Called. now rewrite Hfind.
Qed.

Lemma MockStore_Get_not_found ID (m : database.MockStore) :
  List.find (mock.matches "Get" [mock.VInt ID]) (mock.ExpectedCalls (database.Mock m))
  = None ->
  exists msg, database.MockStore_Get ID m = Panics (panic_value msg) m.
Proof.
  intros Hfind. unfold database.MockStore_Get, bind.
  unfold database.on_Mock, zoom, mock.Called. rewrite Hfind.
  destruct m as [m]. eexists. reflexivity.
Qed.

Lemma MockStore_Get_registered (m : mock.Mock) ID v err :
  no_expectation m ID ->
  database.MockStore_Get ID (registered m ID [mock.VInt v; to_value err]) =
  Returns (v, err)
    (database.mkMockStore
       (mock.mkMock
          (mock.ExpectedCalls m ++
             [mock.mkCall "Get" [mock.VInt ID] [mock.VInt v; to_value err]])
          (mock.Calls m ++
             [mock.mkCall "Get" [mock.VInt ID] [mock.VInt v; to_value err]]))).
Proof.
  intros Hno.
  rewrite (MockStore_Get_found ID _ (mock.mkCall "Get" [mock.VInt ID]
                                       [mock.VInt v; to_value err])).
  - now destruct err.
  - simpl. apply find_registered. now apply find_none_not_matching.
Qed.

(** X7: a registered expectation is what Get returns: on a mock with
    no earlier expectation for Get(ID), after
    [On("Get", ID).Return(v, err)] the call [Get(ID)] returns (v, err),
    keeps the expectations and records one call. *)
Theorem MockStore_Get_returns_registered (m : mock.Mock) ID v err :
  no_expectation m ID ->
  exists m',
    database.MockStore_Get ID (registered m ID [mock.VInt v; to_value err])
      = Returns (v, err) m' /\
    mock.ExpectedCalls (database.Mock m') =
      mock.ExpectedCalls (database.Mock (registered m ID [mock.VInt v; to_value err])) /\
    length (mock.Calls (database.Mock m')) = S (length (mock.Calls m)).
Proof.
  intros Hno. eexists. split; [exact (MockStore_Get_registered m ID v err Hno)|].
  split; [reflexivity|]. simpl. rewrite length_app. simpl. lia.
Qed.

(** X8: a call that was not registered panics: on a mock with no
    expectation for Get(ID), [Get(ID)] panics and records nothing. *)
Theorem MockStore_Get_unexpected_panics (m : database.MockStore) ID :
  no_expectation (database.Mock m) ID ->
  exists msg, database.MockStore_Get ID m = Panics (panic_value msg) m.
Proof.
  intros Hno. apply MockStore_Get_not_found. now apply find_none_not_matching.
Qed.

(** X9: canned results of the wrong shape make Get panic, after the
    call has been recorded: when the first return argument is no int,
    or the second is missing or is neither nil nor an error, [Get(ID)]
    on the registered expectation panics, with one call recorded. *)
Theorem MockStore_Get_bad_results_panic (m : mock.Mock) ID (rets : mock.arguments) :
  no_expectation m ID ->
  (forall v, rets !! 0%nat ≠ Some (mock.VInt v)) \/
  (forall err, rets !! 1%nat ≠ Some (to_value err)) ->
  exists msg m',
    database.MockStore_Get ID (registered m ID rets) = Panics (panic_value msg) m' /\
    length (mock.Calls (database.Mock m')) = S (length (mock.Calls m)).
Proof.
  intros Hno Hbad.
  rewrite (MockStore_Get_found ID _ (mock.mkCall "Get" [mock.VInt ID] rets))
    by (simpl; apply find_registered; now apply find_none_not_matching).
  assert (forall c, length (mock.Calls m ++ [c]) = S (length (mock.Calls m))) as Hlen
    by (intros c; rewrite length_app; simpl; lia).
  destruct rets as [|r0 rets]; [eexists _, _; split; [reflexivity | apply Hlen]|].
  destruct r0 as [|v0|e0];
    [eexists _, _; split; [reflexivity | apply Hlen] | |
     eexists _, _; split; [reflexivity | apply Hlen]].
  destruct rets as [|r1 rets]; [eexists _, _; split; [reflexivity | apply Hlen]|].
  destruct r1 as [|v1|e1].
  - exfalso. destruct Hbad as [H|H]; [exact (H v0 eq_refl) | exact (H None eq_refl)].
  - eexists _, _; split; [reflexivity | apply Hlen].
  - exfalso. destruct Hbad as [H|H]; [exact (H v0 eq_refl) | exact (H (Some e1) eq_refl)].
Qed.

Lemma Store_Get_mock_world ID rets ID' :
  Store_Get (Some 2%positive) ID' (mock_world ID rets) =
  zoom (fun _ => registered (mock.mkMock [] []) ID rets)
       (fun o' w => mkWorld (services w) (<[2%positive := o']> (stores w))
                            (calls w ++ [(2%positive, ID')]))
       (database.MockStore_Get ID') (mock_world ID rets).
Proof.
  unfold Store_Get. simpl stores.
  now rewrite lookup_singleton_eq.
Qed.

Lemma points_to_mock_world ID rets :
  points_to (mock_world ID rets) (Some 1%positive) (mkService (Some 2%positive)).
Proof. unfold points_to. simpl. apply lookup_singleton_eq. Qed.

Lemma AssertExpectations_single (c : mock.Call) :
  mock.AssertExpectations (mock.mkMock [c] [c]) = true.
Proof.
  unfold mock.AssertExpectations. cbn [forallb mock.ExpectedCalls mock.Calls].
  rewrite bool_decide_eq_true_2 by (left). reflexivity.
Qed.

Lemma no_expectation_new ID : no_expectation (mock.mkMock [] []) ID.
Proof. intros c Hc. simpl in Hc. inversion Hc. Qed.

(** X10: the pattern of the tests, for every identifier, value and
    error: with [m.On("Get", ID).Return(v, err)] and [s := Service{m}],
    [s.GetNumber(ID)] returns what the decision gives for (v, err), and
    the expectations of the mock, unmet before the call, are met after
    it; [s.GetNumber(ID')] for any other identifier panics and leaves
    them unmet. *)
Theorem GetNumber_on_mock ID v err :
  expectations_met (mock_world ID [mock.VInt v; to_value err]) 2%positive = Some false /\
  (exists w', GetNumber (Some 1%positive) ID (mock_world ID [mock.VInt v; to_value err])
                = Returns (verdict v err) w' /\
              expectations_met w' 2%positive = Some true) /\
  (forall ID', ID' ≠ ID ->
     exists msg w',
       GetNumber (Some 1%positive) ID' (mock_world ID [mock.VInt v; to_value err])
         = Panics (panic_value msg) w' /\
       expectations_met w' 2%positive = Some false).
Proof.
  split; [|split].
  - unfold expectations_met. simpl stores. rewrite lookup_singleton_eq.
    reflexivity.
  - eexists. split.
    + apply (GetNumber_returns _ _ _ _ _ _ _ (points_to_mock_world _ _)).
      rewrite Store_Get_mock_world. unfold zoom.
      rewrite (MockStore_Get_registered _ ID v err (no_expectation_new ID)).
      reflexivity.
    + unfold expectations_met. simpl stores. rewrite lookup_insert_eq.
      refine (f_equal Some _). apply AssertExpectations_single.
  - intros ID' Hne.
    destruct (MockStore_Get_not_found ID'
                (registered (mock.mkMock [] []) ID [mock.VInt v; to_value err]))
      as [msg Hpanic].
    { apply find_none_not_matching. intros c Hc [_ Hargs].
      simpl in Hc. apply list_elem_of_singleton in Hc as ->. simpl in Hargs.
      congruence. }
    exists msg. eexists. split.
    + apply (GetNumber_panics _ _ _ _ _ _ (points_to_mock_world _ _)).
      rewrite Store_Get_mock_world. unfold zoom. rewrite Hpanic. reflexivity.
    + unfold expectations_met. simpl stores. rewrite lookup_insert_eq.
      reflexivity.
Qed.

(** * Properties of package database *)

(** X11: NewStore returns a Store that is not nil, at an address that
    held no store before, holding the handle it was given, and leaves
    every store that existed as it was. *)
Theorem NewStore_fresh (db : option loc) (h : gmap loc database.store) :
  exists l h',
    database.NewStore db h = Returns (Some l) h' /\
    h !! l = None /\
    h' !! l = Some (database.mkstore db) /\
    forall l', l' ≠ l -> h' !! l' = h !! l'.
Proof.
  exists (fresh (dom h)), (<[fresh (dom h) := database.mkstore db]> h).
  split; [reflexivity|]. split; [|split].
  - apply not_elem_of_dom. apply is_fresh.
  - apply lookup_insert_eq.
  - intros l' Hne. now apply lookup_insert_ne.
Qed.

(** * Properties of the command line loop *)

(** ** Reading numerals *)

Lemma horner_acc d acc : horner d (Zpos acc) = Zpos (Pos.of_uint_acc d acc).
Proof.
  revert acc. induction d; intros acc; simpl; [reflexivity|..];
    rewrite <- IHd; f_equal; lia.
Qed.

Lemma horner_of_uint d : horner d 0 = Z.of_N (Pos.of_uint d).
Proof.
  induction d; simpl; [reflexivity | exact IHd | ..];
    rewrite <- horner_acc; reflexivity.
Qed.

Lemma horner_to_uint p : horner (Pos.to_uint p) 0 = Zpos p.
Proof. rewrite horner_of_uint, DecimalPos.Unsigned.of_to. reflexivity. Qed.

Lemma horner_ge d n : 0 <= n -> n <= horner d n.
Proof.
  revert n. induction d; intros n Hn; simpl; [lia|..];
    (etransitivity; [|apply IHd]; lia).
Qed.

Ltac eval_digit :=
  match goal with
  | |- context [strconv.digit ?c] =>
      let v := eval vm_compute in (strconv.digit c) in
      change (strconv.digit c) with v
  end.

Lemma Atoi_fast_numeral d n :
  strconv.Atoi_fast (NilEmpty.string_of_uint d) n = Some (horner d n).
Proof.
  revert n. induction d; intros n; [reflexivity|..];
    cbn [NilEmpty.string_of_uint strconv.Atoi_fast horner];
    eval_digit; apply IHd.
Qed.

Lemma ParseUint_from_numeral d n :
  0 <= n -> horner d n <= strconv.maxUint64 ->
  strconv.ParseUint_from (NilEmpty.string_of_uint d) n = (horner d n, None).
Proof.
  revert n. induction d; intros n Hn Hmax; [reflexivity|..];
    cbn [NilEmpty.string_of_uint strconv.ParseUint_from horner] in *;
    (match goal with
     | H : horner _ ?m <= _ |- _ =>
         assert (m <= strconv.maxUint64)
           by (etransitivity; [apply horner_ge; lia | exact H])
     end);
    unfold strconv.maxUint64 in *;
    eval_digit; cbv beta iota zeta;
    rewrite decide_False by (change ((2 ^ 64 - 1) / 10 + 1) with 1844674407370955162; lia);
    rewrite decide_False by lia;
    apply IHd; (lia || assumption).
Qed.

Lemma numeral_head d :
  d ≠ Decimal.Nil ->
  exists c rest, NilEmpty.string_of_uint d = String c rest /\
                 c ≠ "-"%char /\ c ≠ "+"%char.
Proof.
  destruct d; [contradiction|..]; intros _; eexists _, _;
    (split; [reflexivity | split; discriminate]).
Qed.

Lemma Atoi_unsigned s c rest V :
  s = String c rest -> c ≠ "-"%char -> c ≠ "+"%char ->
  strconv.Atoi_fast s 0 = Some V ->
  strconv.ParseUint_from s 0 = (V, None) ->
  V < 2 ^ 63 ->
  strconv.Atoi s = (V, None).
Proof.
  intros -> Hm Hp Hfast Hslow HV. unfold strconv.Atoi.
  destruct (decide (String.length (String c rest) < 19)%nat) as [_|_].
  - rewrite (decide_False (P := c = "-"%char \/ c = "+"%char)) by tauto.
    rewrite decide_False by (simpl; lia).
    rewrite Hfast. now rewrite decide_False.
  - unfold strconv.ParseInt.
    rewrite (decide_False (P := c = "+"%char \/ c = "-"%char)) by tauto.
    rewrite bool_decide_eq_false_2 by assumption.
    unfold strconv.ParseUint. rewrite Hslow.
    rewrite decide_False by discriminate.
    rewrite (bool_decide_eq_false_2 (2 ^ 63 <= V)) by lia.
    reflexivity.
Qed.

Lemma Atoi_negative s V :
  s ≠ EmptyString ->
  strconv.Atoi_fast s 0 = Some V ->
  strconv.ParseUint_from s 0 = (V, None) ->
  V <= 2 ^ 63 ->
  strconv.Atoi (String "-" s) = (- V, None).
Proof.
  intros Hne Hfast Hslow HV. unfold strconv.Atoi.
  destruct (decide (String.length (String "-" s) < 19)%nat) as [_|_].
  - rewrite (decide_True (P := "-"%char = "-"%char \/ "-"%char = "+"%char))
      by (left; reflexivity).
    rewrite decide_False by (destruct s; [contradiction | simpl; lia]).
    rewrite Hfast. now rewrite decide_True.
  - unfold strconv.ParseInt.
    rewrite (decide_True (P := "-"%char = "+"%char \/ "-"%char = "-"%char))
      by (right; reflexivity).
    rewrite bool_decide_eq_true_2 by reflexivity.
    unfold strconv.ParseUint. destruct s as [|c rest]; [contradiction|].
    rewrite Hslow.
    rewrite decide_False by discriminate.
    rewrite (bool_decide_eq_false_2 (2 ^ 63 < V)) by lia.
    reflexivity.
Qed.

Lemma fmt_d_pos p :
  fmt.fmt_d (Zpos p) = NilEmpty.string_of_uint (Pos.to_uint p).
Proof.
  unfold fmt.fmt_d. simpl.
  pose proof (DecimalPos.Unsigned.to_uint_nonnil p) as Hnn.
  now destruct (Pos.to_uint p).
Qed.

Lemma fmt_d_neg p :
  fmt.fmt_d (Zneg p) = String "-" (NilEmpty.string_of_uint (Pos.to_uint p)).
Proof.
  unfold fmt.fmt_d. simpl.
  pose proof (DecimalPos.Unsigned.to_uint_nonnil p) as Hnn.
  now destruct (Pos.to_uint p).
Qed.

Lemma Atoi_fmt_d n : int_range n -> strconv.Atoi (fmt.fmt_d n) = (n, None).
Proof.
  unfold int_range. intros Hn. destruct n as [|p|p].
  - reflexivity.
  - rewrite fmt_d_pos.
    destruct (numeral_head _ (DecimalPos.Unsigned.to_uint_nonnil p))
      as (c & rest & Hs & Hm & Hp).
    rewrite <- (horner_to_uint p).
    apply (Atoi_unsigned _ c rest); try assumption.
    + apply Atoi_fast_numeral.
    + apply ParseUint_from_numeral; [lia|].
      rewrite horner_to_uint. unfold strconv.maxUint64. lia.
    + rewrite horner_to_uint. lia.
  - rewrite fmt_d_neg.
    change (Z.neg p) with (- Z.pos p). rewrite <- (horner_to_uint p).
    apply Atoi_negative.
    + pose proof (DecimalPos.Unsigned.to_uint_nonnil p) as Hnn.
      now destruct (Pos.to_uint p).
    + apply Atoi_fast_numeral.
    + apply ParseUint_from_numeral; [lia|].
      rewrite horner_to_uint. unfold strconv.maxUint64. lia.
    + rewrite horner_to_uint. lia.
Qed.

Lemma digit_range c d : strconv.digit c = Some d -> 0 <= d <= 9.
Proof.
  unfold strconv.digit. destruct (decide _); [|discriminate].
  intros [= <-]. lia.
Qed.

Lemma Atoi_fast_bound s n r :
  0 <= n -> strconv.Atoi_fast s n = Some r ->
  0 <= r < (n + 1) * 10 ^ Z.of_nat (String.length s).
Proof.
  revert n. induction s as [|c s IH]; intros n Hn; simpl strconv.Atoi_fast.
  - intros [= <-]. simpl. lia.
  - destruct (strconv.digit c) as [d|] eqn:Hd; [|discriminate].
    apply digit_range in Hd. intros Hr.
    apply IH in Hr; [|lia].
    cbn [String.length]. rewrite Nat2Z.inj_succ, Z.pow_succ_r by lia.
    assert (0 < 10 ^ Z.of_nat (String.length s)) by (apply Z.pow_pos_nonneg; lia).
    nia.
Qed.

Lemma ParseUint_from_nonneg s n : 0 <= n -> 0 <= fst (strconv.ParseUint_from s n).
Proof.
  revert n. induction s as [|c s IH]; intros n Hn; simpl; [exact Hn|].
  destruct (strconv.digit c) as [d|] eqn:Hd; [|simpl; lia].
  apply digit_range in Hd.
  destruct (decide _); [unfold strconv.maxUint64; simpl; lia|].
  destruct (decide _); [unfold strconv.maxUint64; simpl; lia|].
  apply IH. lia.
Qed.

Lemma ParseUint_nonneg s : 0 <= fst (strconv.ParseUint s).
Proof.
  destruct s; [simpl; lia|]. unfold strconv.ParseUint.
  apply ParseUint_from_nonneg. lia.
Qed.

Lemma ParseInt_result s :
  int_range (fst (strconv.ParseInt s)) /\
  (snd (strconv.ParseInt s) = Some strconv.ErrSyntax -> fst (strconv.ParseInt s) = 0).
Proof.
  unfold int_range, strconv.ParseInt. destruct s as [|c rest]; [simpl; lia|].
  cbv zeta.
  set (s' := if decide (c = "+"%char \/ c = "-"%char) then rest else String c rest).
  pose proof (ParseUint_nonneg s') as Hnn.
  destruct (strconv.ParseUint s') as [un err]. simpl in Hnn.
  destruct (decide (err = Some strconv.ErrSyntax)); [simpl; lia|].
  destruct (bool_decide (c = "-"%char)); simpl.
  - destruct (bool_decide (2 ^ 63 < un)) eqn:Hlt; simpl; [split; [lia | discriminate]|].
    apply bool_decide_eq_false in Hlt. split; [lia | discriminate].
  - destruct (bool_decide (2 ^ 63 <= un)) eqn:Hle; simpl; [split; [lia | discriminate]|].
    apply bool_decide_eq_false in Hle. split; [lia | discriminate].
Qed.

(** ** Running the loop *)

Lemma append_assoc (a b c : string) : (a +:+ b) +:+ c = a +:+ (b +:+ c).
Proof.
  induction a as [|x a IH]; [reflexivity|].
  change (String x ((a +:+ b) +:+ c) = String x (a +:+ (b +:+ c))).
  now rewrite IH.
Qed.

Lemma Sprintf_result_invalid (e : error) :
  program.Sprintf "result invalid: %v" [Some e] = "result invalid: " +:+ Error e.
Proof.
  change (program.Sprintf "result invalid: %v" [Some e])
    with ("result invalid: " +:+ (Error e +:+ "")).
  now rewrite append_empty_r.
Qed.

Section Loop.
Context {T : Type} {impl : database.Store T}.
Implicit Types (p : program.Process T) (service store : option loc).

Lemma body_returns service store text p v err w1 :
  points_to (program.world p) service (mkService store) ->
  Store_Get store (line_ID text) (program.world p) = Returns (v, err) w1 ->
  program.body service text p =
  Returns tt (program.mkProcess w1 (program.stdout p +:+ message (verdict v err))).
Proof.
  intros Hs Hget. unfold program.body, line_ID in *.
  destruct (strconv.Atoi text) as [ID e]. simpl in Hget.
  unfold bind, program.in_world, zoom.
  rewrite (GetNumber_returns _ _ _ _ _ _ _ Hs Hget).
  destruct (verdict v err) as [e'|].
  - rewrite decide_True by discriminate.
    unfold program.Printf, program.write. simpl program.stdout.
    now rewrite Sprintf_result_invalid.
  - rewrite decide_False by (intros H; now apply H). reflexivity.
Qed.

Lemma body_panics service store text p pn w1 :
  points_to (program.world p) service (mkService store) ->
  Store_Get store (line_ID text) (program.world p) = Panics pn w1 ->
  program.body service text p = Panics pn (program.mkProcess w1 (program.stdout p)).
Proof.
  intros Hs Hget. unfold program.body, line_ID in *.
  destruct (strconv.Atoi text) as [ID e]. simpl in Hget.
  unfold bind, program.in_world, zoom.
  now rewrite (GetNumber_panics _ _ _ _ _ _ Hs Hget).
Qed.

Lemma loop_app service (pre post : list string) p :
  program.loop service (pre ++ post) p =
  (do _ <- program.loop service pre; program.loop service post) p.
Proof.
  revert p. induction pre as [|text pre IH]; intros p; [reflexivity|].
  cbn [app program.loop]. unfold bind in *.
  destruct (program.body service text p) as [[] p1|pn p1]; [|reflexivity].
  apply IH.
Qed.

(** X12: what the loop does for one line: for a line whose lookup, at
    the identifier read from the line, returns (v, err), the body
    appends "result valid" and a newline to the output when the
    result is valid, and "result invalid: " and the text of the error,
    with no newline, when it is not; the world is the one the lookup
    left. *)
Theorem body_prints_the_result service store text p v err w1 :
  points_to (program.world p) service (mkService store) ->
  Store_Get store (line_ID text) (program.world p) = Returns (v, err) w1 ->
  exists out,
    program.body service text p =
      Returns tt (program.mkProcess w1 (program.stdout p +:+ out)) /\
    (err = None /\ v <= 10 -> out = "result valid" +:+ program.newline) /\
    (forall e, err = Some e -> out = "result invalid: " +:+ Error e) /\
    (err = None /\ v > 10 ->
     out = "result invalid: result too high: " +:+ fmt.fmt_d v).
Proof.
  intros Hs Hget. exists (message (verdict v err)).
  split; [exact (body_returns _ _ _ _ _ _ _ Hs Hget)|]. repeat split.
  - intros [-> Hle]. unfold verdict. now rewrite decide_False by lia.
  - intros e ->. reflexivity.
  - intros [-> Hgt]. unfold verdict. rewrite decide_True by lia.
    unfold message. simpl Error. now rewrite <- append_assoc.
Qed.

(** X13: a panic ends the loop: when the lines before a line have been
    served and the body panics on that line, the loop panics there,
    with that panic and in that state, whatever lines follow. *)
Theorem loop_stops_at_panic service (pre post : list string) text p p1 pn p2 :
  program.loop service pre p = Returns tt p1 ->
  program.body service text p1 = Panics pn p2 ->
  program.loop service (pre ++ text :: post) p = Panics pn p2.
Proof.
  intros Hpre Hbody. rewrite loop_app. unfold bind at 1. rewrite Hpre.
  simpl. unfold bind. now rewrite Hbody.
Qed.

End Loop.

(** ** The program with the production store *)

Lemma Store_Get_store (w : World database.store) l ID :
  is_Some (stores w !! l) ->
  Store_Get (Some l) ID w =
  Returns (0, None) (mkWorld (services w) (stores w) (calls w ++ [(l, ID)])).
Proof.
  intros [d Hd]. unfold Store_Get. rewrite Hd.
  change (database.Get ID) with (database.store_Get ID).
  unfold zoom, database.store_Get, ret. now rewrite (insert_id _ _ _ Hd).
Qed.

Lemma loop_store service l (lines : list string) (p : program.Process database.store) :
  points_to (program.world p) service (mkService (Some l)) ->
  is_Some (stores (program.world p) !! l) ->
  program.loop service lines p =
  Returns tt
    (program.mkProcess
       (mkWorld (services (program.world p)) (stores (program.world p))
                (calls (program.world p) ++ map (fun text => (l, line_ID text)) lines))
       (program.stdout p +:+ valid_output lines)).
Proof.
  revert p. induction lines as [|text lines IH]; intros p Hs Hl.
  - destruct p as [[sv st cl] out]. simpl.
    now rewrite app_nil_r, append_empty_r.
  - cbn [program.loop]. unfold bind.
    rewrite (body_returns _ _ _ _ _ _ _ Hs (Store_Get_store _ l _ Hl)).
    rewrite IH by assumption. simpl.
    rewrite <- app_assoc, append_assoc. reflexivity.
Qed.

Lemma main_run db (lines : list string) (p : program.Process database.store) :
  program.main db lines p =
  Returns tt
    (program.mkProcess
       (mkWorld
          (<[fresh (dom (services (program.world p))) :=
               mkService (Some (fresh (dom (stores (program.world p)))))]>
             (services (program.world p)))
          (<[fresh (dom (stores (program.world p))) := database.mkstore db]>
             (stores (program.world p)))
          (calls (program.world p) ++
             map (fun text => (fresh (dom (stores (program.world p))), line_ID text))
                 lines))
       (program.stdout p +:+ valid_output lines)).
Proof.
  unfold program.main, bind at 1.
  unfold program.in_world, zoom at 1.
  change (main.compose db (program.world p))
    with (Returns (S := World database.store)
            (Some (fresh (dom (services (program.world p)))))
            (mkWorld
               (<[fresh (dom (services (program.world p))) :=
                    mkService (Some (fresh (dom (stores (program.world p)))))]>
                  (services (program.world p)))
               (<[fresh (dom (stores (program.world p))) := database.mkstore db]>
                  (stores (program.world p)))
               (calls (program.world p)))).
  cbv beta iota.
  rewrite (loop_store _ (fresh (dom (stores (program.world p))))).
  - reflexivity.
  - unfold points_to. simpl. apply lookup_insert_eq.
  - simpl. rewrite lookup_insert_eq. eauto.
Qed.


(** X15: the identifier main looks up for a line is always in the
    range of int, and it is 0 for every line that Atoi rejects with a
    syntax error: main ignores the error of Atoi and goes on with the
    value. *)
Theorem line_ID_in_range_and_zero_on_syntax_error (s : string) :
  int_range (line_ID s) /\
  (snd (strconv.Atoi s) = Some strconv.ErrSyntax -> line_ID s = 0).
Proof.
  unfold line_ID, strconv.Atoi. destruct s as [|c rest]; [apply ParseInt_result|].
  destruct (decide (String.length (String c rest) < 19)%nat) as [Hlen|_];
    [|apply ParseInt_result].
  set (s1 := if decide (c = "-"%char \/ c = "+"%char) then rest else String c rest).
  assert (String.length s1 <= 18)%nat as Hlen1
    by (subst s1; destruct (decide _); simpl in *; lia).
  destruct (decide (String.length s1 < 1)%nat); [unfold int_range; simpl; lia|].
  destruct (strconv.Atoi_fast s1 0) as [r|] eqn:Hr; [|unfold int_range; simpl; lia].
  apply Atoi_fast_bound in Hr; [|lia].
  assert (10 ^ Z.of_nat (String.length s1) <= 10 ^ 18)
    by (apply Z.pow_le_mono_r; lia).
  unfold int_range. destruct (decide (c = "-"%char)); simpl; (split; [lia | discriminate]).
Qed.

(** X16: typing identifiers looks them up: when the lines are the
    decimal numerals, as [%d] prints them, of identifiers in the range
    of int, main makes its lookups at exactly these identifiers, in
    order. *)
Theorem main_looks_up_typed_identifiers
    db (ids : list int) (p : program.Process database.store) :
  Forall int_range ids ->
  exists l p',
    program.main db (map fmt.fmt_d ids) p = Returns tt p' /\
    calls (program.world p') =
      (calls (program.world p) ++ map (fun ID => (l, ID)) ids)%list.
Proof.
  intros Hids. eexists _, _. split; [apply main_run|]. simpl.
  f_equal. rewrite map_map. apply map_ext_Forall.
  eapply Forall_impl; [exact Hids|].
  intros ID HID. simpl. unfold line_ID. now rewrite (Atoi_fmt_d ID HID).
Qed.

(** * Instances of the further properties *)

Lemma GetNumber_nil_iff_valid_witness :
  GetNumber (Some 1%positive) 2 scenario_A = Returns None (after_lookup scenario_A) <->
  exists v, Store_Get (Some 2%positive) 2 scenario_A
              = Returns (v, None) (after_lookup scenario_A) /\ v <= 10.
Proof. apply GetNumber_nil_iff_valid. reflexivity. Defined.

Lemma NewGetNumber_error_iff_witness :
  NewGetNumber (Some 2%positive) 2 scenario_C =
  Returns (Some (errors.New "failed")) (after_lookup scenario_C).
Proof.
  apply (NewGetNumber_error_iff scenario_C (Some 2%positive) 2).
  left. exists 0. reflexivity.
Defined.

Lemma GetNumber_panics_iff_witness :
  GetNumber None 5 scenario_A = Panics nil_dereference scenario_A.
Proof.
  apply GetNumber_panics_iff. left. repeat split; reflexivity.
Defined.

Lemma GetNumber_same_on_shared_Store_witness :
  GetNumber (Some 1%positive) 2 shared_world = GetNumber (Some 4%positive) 2 shared_world.
Proof.
  apply (GetNumber_same_on_shared_Store _ _ _ (Some 2%positive)); reflexivity.
Defined.

Lemma validation_error_reads_back_witness : parse_decimal "24" = Some 24.
Proof.
  apply (validation_error_reads_back scenario_B (Some 1%positive) (Some 2%positive) 2 24
           (after_lookup scenario_B) (errorString "result too high: 24")
           (after_lookup scenario_B) "24"); reflexivity.
Defined.


Lemma MockStore_Get_returns_registered_witness :
  exists m',
    database.MockStore_Get 2 (registered (mock.mkMock [] []) 2 [mock.VInt 7; mock.VNil])
      = Returns (7, None) m' /\
    length (mock.Calls (database.Mock m')) = 1%nat.
Proof.
  destruct (MockStore_Get_returns_registered (mock.mkMock [] []) 2 7 None)
    as (m' & Hrun & _ & Hlen).
  - intros c Hc. inversion Hc.
  - exists m'. split; [exact Hrun | exact Hlen].
Defined.

Lemma MockStore_Get_unexpected_panics_witness :
  exists msg,
    database.MockStore_Get 3 (test_mock [mock.VInt 7; mock.VNil]) =
    Panics (panic_value msg) (test_mock [mock.VInt 7; mock.VNil]).
Proof.
  apply MockStore_Get_unexpected_panics.
  intros c Hc [_ Hargs]. simpl in Hc.
  apply list_elem_of_singleton in Hc. subst c. discriminate Hargs.
Defined.

Lemma MockStore_Get_bad_results_panic_witness :
  exists msg m',
    database.MockStore_Get 2 (registered (mock.mkMock [] []) 2 [mock.VNil; mock.VNil])
      = Panics (panic_value msg) m' /\
    length (mock.Calls (database.Mock m')) = 1%nat.
Proof.
  apply (MockStore_Get_bad_results_panic (mock.mkMock [] []) 2 [mock.VNil; mock.VNil]).
  - intros c Hc. inversion Hc.
  - left. intros v. discriminate.
Defined.

Lemma GetNumber_on_mock_witness :
  exists msg w',
    GetNumber (Some 1%positive) 3 (mock_world 2 [mock.VInt 7; to_value None])
      = Panics (panic_value msg) w' /\
    expectations_met w' 2%positive = Some false.
Proof.
  destruct (GetNumber_on_mock 2 7 None) as (_ & _ & Hother).
  apply (Hother 3). discriminate.
Defined.

Lemma NewStore_fresh_witness :
  exists l h',
    database.NewStore None ∅ = Returns (Some l) h' /\
    h' !! l = Some (database.mkstore None).
Proof.
  destruct (NewStore_fresh None ∅) as (l & h' & Hrun & _ & Hl & _).
  exists l, h'. split; [exact Hrun | exact Hl].
Defined.

Lemma body_prints_the_result_witness :
  exists out,
    program.body (Some 1%positive) "2" (program.mkProcess scenario_B "") =
      Returns tt (program.mkProcess (after_lookup scenario_B) ("" +:+ out)) /\
    out = "result invalid: result too high: 24".
Proof.
  destruct (body_prints_the_result (Some 1%positive) (Some 2%positive) "2"
              (program.mkProcess scenario_B "") 24 None (after_lookup scenario_B))
    as (out & Hrun & _ & _ & Hhigh); [reflexivity | reflexivity |].
  exists out. split; [exact Hrun|].
  apply Hhigh. split; reflexivity.
Defined.

Lemma loop_stops_at_panic_witness :
  exists pn p2,
    program.loop (Some 1%positive) ["2"; "3"; "2"] (program.mkProcess scenario_A "")
    = Panics pn p2.
Proof.
  eexists _, _.
  eapply (loop_stops_at_panic (Some 1%positive) ["2"] ["2"] "3"
            (program.mkProcess scenario_A "")); reflexivity.
Defined.

Lemma line_ID_in_range_and_zero_on_syntax_error_witness : line_ID "abc" = 0.
Proof.
  apply (line_ID_in_range_and_zero_on_syntax_error "abc"). reflexivity.
Defined.

Lemma main_looks_up_typed_identifiers_witness :
  exists l p',
    program.main None ["1"; "-7"; "42"] (program.mkProcess empty_world "") = Returns tt p' /\
    calls (program.world p') = [(l, 1); (l, -7); (l, 42)].
Proof.
  apply (main_looks_up_typed_identifiers None [1; -7; 42]
           (program.mkProcess empty_world "")).
  repeat constructor; unfold int_range; lia.
Defined.
